(** * QR code / barcode generation service: validation and request handling

    A shallow embedding of [validate_input], of the [generate_code]
    handler, of [add_security_headers] and [after_request], and of
    [Config.__post_init__] of [src/main.py], with the properties the
    specification states about them and further ones read off the code.

    Python strings are sequences of Unicode code points, so a [str] is a
    list of code points and [len] counts list elements.  The two encoders,
    [send_file] and the Unicode part of [str.lower] belong to libraries
    outside the repository and are taken as parameters of the handler. *)

From Stdlib Require Import List ZArith NArith QArith Bool Lia.
From Stdlib Require Import String Ascii DecimalString.
Import ListNotations.

Local Open Scope Z_scope.

(** ** Python strings *)

Module PyStr.

(** A character is its code point; [ord] reads it as a Python int. *)
Definition char := N.
Definition str := list char.

Definition ord (c : char) : Z := Z.of_N c.
Definition len (s : str) : Z := Z.of_nat (List.length s).

(** A literal of the source text (all literals of [main.py] are ASCII). *)
Definition lit (s : string) : str :=
  List.map N_of_ascii (list_ascii_of_string s).

(** Truth value of a string: the empty string is false. *)
Definition truthy (s : str) : bool :=
  match s with
  | [] => false
  | _ :: _ => true
  end.

(** [a == b] *)
Fixpoint eqb (a b : str) : bool :=
  match a, b with
  | [], [] => true
  | x :: a', y :: b' => N.eqb x y && eqb a' b'
  | _, _ => false
  end.

(** [x in xs] for a collection of strings. *)
Definition mem (x : str) (xs : list str) : bool :=
  existsb (eqb x) xs.

(** [sep.join(xs)] *)
Fixpoint join (sep : str) (xs : list str) : str :=
  match xs with
  | [] => []
  | [x] => x
  | x :: rest => x ++ sep ++ join sep rest
  end.

(** [str(n)] for an int, as an f-string renders it. *)
Definition of_int (n : Z) : str :=
  lit (NilZero.string_of_int (Z.to_int n)).

(** [s[:n]] for a non-negative [n]. *)
Definition prefix (n : nat) (s : str) : str := firstn n s.

(** [sub in s] for two strings. *)
Fixpoint starts_with (sub s : str) : bool :=
  match sub, s with
  | [], _ => true
  | x :: sub', y :: s' => N.eqb x y && starts_with sub' s'
  | _ :: _, [] => false
  end.

Fixpoint contains (sub s : str) : bool :=
  starts_with sub s ||
  match s with
  | [] => false
  | _ :: s' => contains sub s'
  end.

(** [str.isspace] of one character: the ASCII white space table of
    CPython and the Unicode characters of type WS, B or S. *)
Definition isspace (c : char) : bool :=
  let n := ord c in
  ((9 <=? n) && (n <=? 13)) || ((28 <=? n) && (n <=? 32))
  || (n =? 133) || (n =? 160) || (n =? 5760)
  || ((8192 <=? n) && (n <=? 8202))
  || (n =? 8232) || (n =? 8233) || (n =? 8239) || (n =? 8287)
  || (n =? 12288).

Fixpoint lstrip (s : str) : str :=
  match s with
  | [] => []
  | c :: s' => if isspace c then lstrip s' else s
  end.

Definition rstrip (s : str) : str := rev (lstrip (rev s)).

(** [s.strip()] *)
Definition strip (s : str) : str := rstrip (lstrip s).

(** [str.lower] on an ASCII character. *)
Definition ascii_lower (c : char) : char :=
  if (65 <=? ord c) && (ord c <=? 90) then (c + 32)%N else c.

Section Lower.
(** The lower-case mapping of a character outside ASCII comes from the
    Unicode tables of the interpreter; it may yield several characters
    and may depend on the position in the string (final sigma), so it
    is given the whole string and the index. *)
Variable unicode_lower : str -> nat -> str.

Fixpoint lower_from (whole : str) (i : nat) (s : str) : str :=
  match s with
  | [] => []
  | c :: s' =>
      (if ord c <? 128 then [ascii_lower c] else unicode_lower whole i)
        ++ lower_from whole (S i) s'
  end.

(** [s.lower()] *)
Definition lower (s : str) : str := lower_from s 0 s.
End Lower.

End PyStr.

Import PyStr.

(** ** Configuration *)

(** [ALLOWED_TYPES] is a Python set of two strings; the order in which it
    is iterated depends on the string hashes of the process. *)
Inductive set_order := QrcodeFirst | BarcodeFirst.

Record Config := mkConfig {
  MAX_CONTENT_LENGTH : Z;
  BARCODE_MAX_LENGTH : Z;
  ALLOWED_TYPES : list str;
  QR_BORDER_SIZE : Z;
  QR_BOX_SIZE : Z;
  BARCODE_MODULE_WIDTH : Q;
  BARCODE_MODULE_HEIGHT : Q;
  BARCODE_QUIET_ZONE : Q;
  BARCODE_FONT_SIZE : Z;
  BARCODE_TEXT_DISTANCE : Q;
  BARCODE_MARGIN_TOP : Q
}.

Definition qrcode_t : str := lit "qrcode".
Definition barcode_t : str := lit "barcode".

Definition config (o : set_order) : Config := {|
  MAX_CONTENT_LENGTH := 1000;
  BARCODE_MAX_LENGTH := 64;
  ALLOWED_TYPES :=
    match o with
    | QrcodeFirst => [qrcode_t; barcode_t]
    | BarcodeFirst => [barcode_t; qrcode_t]
    end;
  QR_BORDER_SIZE := 1;
  QR_BOX_SIZE := 10;
  BARCODE_MODULE_WIDTH := (3 # 10)%Q;
  BARCODE_MODULE_HEIGHT := (15 # 1)%Q;
  BARCODE_QUIET_ZONE := (3 # 1)%Q;
  BARCODE_FONT_SIZE := 12;
  BARCODE_TEXT_DISTANCE := (6 # 1)%Q;
  BARCODE_MARGIN_TOP := (3 # 1)%Q
|}.

(** ** Input validation *)

(** The five messages [validate_input] can return with [False]. *)
Definition msg_missing_content : str := lit "Missing 'content' parameter".

Definition msg_invalid_type (o : set_order) : str :=
  lit "Invalid type. Must be one of: "
  ++ join (lit ", ") (ALLOWED_TYPES (config o)).

Definition msg_barcode_too_long (o : set_order) : str :=
  lit "Barcode content exceeds maximum length of "
  ++ of_int (BARCODE_MAX_LENGTH (config o)) ++ lit " characters".

Definition msg_barcode_ascii : str :=
  lit "Barcode content must contain only ASCII characters".

Definition msg_content_too_long (o : set_order) : str :=
  lit "Content exceeds maximum length of "
  ++ of_int (MAX_CONTENT_LENGTH (config o)) ++ lit " characters".

Definition validate_input (o : set_order) (content generate_type : str)
  : bool * str :=
  if negb (truthy content) then
    (false, msg_missing_content)
  else if negb (mem generate_type (ALLOWED_TYPES (config o))) then
    (false, msg_invalid_type o)
  else if eqb generate_type barcode_t then
    if len content >? BARCODE_MAX_LENGTH (config o) then
      (false, msg_barcode_too_long o)
    else if negb (forallb (fun c => (0 <=? ord c) && (ord c <? 128)) content)
    then (false, msg_barcode_ascii)
    else (true, [])
  else
    if len content >? MAX_CONTENT_LENGTH (config o) then
      (false, msg_content_too_long o)
    else (true, []).


(** ** Logging, exceptions and the libraries the handler calls *)

Inductive level := INFO | WARNING | ERROR.

Definition log_record : Type := level * str.

(** A call either returns or raises; an exception is kept as [str(e)],
    the only thing the handler reads from it. *)
Inductive outcome (A : Type) : Type :=
| Return (a : A)
| Raise (e : str).
Arguments Return {A} a.
Arguments Raise {A} e.

Definition bytes := list Byte.byte.

(** Handler code: it appends to the log and may raise. *)
Definition M (A : Type) : Type :=
  list log_record -> outcome A * list log_record.

Definition ret {A} (a : A) : M A := fun l => (Return a, l).

Definition bind {A B} (m : M A) (f : A -> M B) : M B :=
  fun l =>
    match m l with
    | (Return a, l') => f a l'
    | (Raise e, l') => (Raise e, l')
    end.

Definition call {A} (r : outcome A) : M A := fun l => (r, l).

Definition logger (lv : level) (msg : str) : M unit :=
  fun l => (Return tt, l ++ [(lv, msg)]).

(** [try: m except Exception as e: h e] *)
Definition try_except {A} (m : M A) (h : str -> M A) : M A :=
  fun l =>
    match m l with
    | (Return a, l') => (Return a, l')
    | (Raise e, l') => h e l'
    end.

Notation "x <- m ;; k" := (bind m (fun x => k))
  (at level 61, m at next level, right associativity).
Notation "m ;;; k" := (bind m (fun _ => k))
  (at level 61, right associativity).

(** The options [generate_code] passes to the Code128 writer, and the
    settings it gives the QR encoder. *)
Record BarcodeOptions := mkBarcodeOptions {
  module_width : Q;
  module_height : Q;
  quiet_zone : Q;
  font_size : Z;
  text_distance : Q;
  margin_top : Q
}.

Inductive error_correction_level := ERROR_CORRECT_L.

Record QROptions := mkQROptions {
  border : Z;
  box_size : Z;
  error_correction : error_correction_level;
  fit : bool;
  fill_color : str;
  back_color : str
}.

(** A Flask [Response] carrying a file. *)
Record Response := mkResponse {
  data : bytes;
  mimetype : str;
  headers : list (str * str)
}.

(** What a view function returns: a [(body, status)] pair or a
    [Response] object. *)
Inductive view_result :=
| Plain (body : str) (status : Z)
| File (response : Response).

(** The library calls of the handler. *)
Record Libs := mkLibs {
  (** Unicode part of [str.lower]. *)
  unicode_lower : str -> nat -> str;
  (** [barcode.get('code128', content, writer).write(buf, options)],
      giving the bytes written. *)
  code128_write : str -> BarcodeOptions -> outcome bytes;
  (** Building the QR symbol and saving its image as PNG. *)
  qr_save_png : str -> QROptions -> outcome bytes;
  (** [send_file(buf, mimetype=...)]. *)
  send_file : bytes -> str -> outcome Response
}.

(** The query string of a request: each parameter may be absent. *)
Record Request := mkRequest {
  arg_content : option str;
  arg_type : option str
}.

(** [request.args.get(name, default)] *)
Definition args_get (a : option str) (default : str) : str :=
  match a with
  | Some v => v
  | None => default
  end.

(** The headers of a response compare names without regard to case: two
    names are the same when their [lower()] forms are equal.  [ul] is the
    Unicode part of [str.lower], as in [lower]. *)
Definition name_eqb (ul : str -> nat -> str) (a b : str) : bool :=
  eqb (lower ul a) (lower ul b).

(** Whether a header entry has the name [k]. *)
Definition named (ul : str -> nat -> str) (k : str) (entry : str * str)
  : bool :=
  name_eqb ul (fst entry) k.

(** [response.headers[k] = v]: the first entry of that name is replaced
    by the new one and every later entry of that name is removed; when
    there is no such entry the new one is appended. *)
Fixpoint set_header (ul : str -> nat -> str) (k v : str)
  (hs : list (str * str)) : list (str * str) :=
  match hs with
  | [] => [(k, v)]
  | (k', v') :: hs' =>
      if name_eqb ul k' k
      then (k, v) :: filter (fun e => negb (named ul k e)) hs'
      else (k', v') :: set_header ul k v hs'
  end.

Definition add_security_headers (ul : str -> nat -> str)
  (response : Response) : Response :=
  let hs := headers response in
  let hs := set_header ul (lit "X-Content-Type-Options") (lit "nosniff") hs in
  let hs := set_header ul (lit "X-Frame-Options") (lit "DENY") hs in
  let hs := set_header ul (lit "X-XSS-Protection") (lit "1; mode=block") hs in
  let hs := set_header ul (lit "Content-Security-Policy")
              (lit "default-src 'none'; img-src 'self'") hs in
  let hs := set_header ul (lit "Cache-Control")
              (lit "no-store, no-cache, must-revalidate, max-age=0") hs in
  {| data := data response; mimetype := mimetype response; headers := hs |}.

(** ** The handler *)

(** The writer options of the barcode branch and the encoder settings of
    the QR branch, all taken from the configuration. *)
Definition barcode_options (o : set_order) : BarcodeOptions :=
  {| module_width := BARCODE_MODULE_WIDTH (config o);
     module_height := BARCODE_MODULE_HEIGHT (config o);
     quiet_zone := BARCODE_QUIET_ZONE (config o);
     font_size := BARCODE_FONT_SIZE (config o);
     text_distance := BARCODE_TEXT_DISTANCE (config o);
     margin_top := BARCODE_MARGIN_TOP (config o) |}.

Definition qr_options (o : set_order) : QROptions :=
  {| border := QR_BORDER_SIZE (config o);
     box_size := QR_BOX_SIZE (config o);
     error_correction := ERROR_CORRECT_L;
     fit := true;
     fill_color := lit "black";
     back_color := lit "white" |}.

(** The body of the outer [try] of [generate_code].  An inner [except]
    clause returns from the function: the encoding step yields either
    that early result or the filled buffer. *)
Definition generate_code_try (lib : Libs) (o : set_order) (req : Request)
  : M view_result :=
  let content := strip (args_get (arg_content req) []) in
  let generate_type :=
    lower (unicode_lower lib) (args_get (arg_type req) qrcode_t) in
  let '(is_valid, error_msg) := validate_input o content generate_type in
  if negb is_valid then
    logger WARNING
      (lit "Invalid input: " ++ error_msg ++ lit " - content=" ++ content
       ++ lit ", type=" ++ generate_type) ;;;
    ret (Plain error_msg 400)
  else
    r <- (if eqb generate_type barcode_t then
            logger INFO
              (lit "Generating barcode for content: " ++ prefix 20 content
               ++ lit "...") ;;;
            try_except
              (buf <- call (code128_write lib content (barcode_options o)) ;;
               ret (inr buf))
              (fun e =>
                 logger ERROR (lit "Barcode generation failed: " ++ e) ;;;
                 ret (inl (Plain (lit "Barcode generation error: " ++ e) 500)))
          else
            logger INFO
              (lit "Generating QR code for content: " ++ prefix 20 content
               ++ lit "...") ;;;
            try_except
              (buf <- call (qr_save_png lib content (qr_options o)) ;;
               ret (inr buf))
              (fun e =>
                 logger ERROR (lit "QR code generation failed: " ++ e) ;;;
                 ret (inl (Plain (lit "QR code generation error: " ++ e) 500)))) ;;
    match r with
    | inl early => ret early
    | inr buf =>
        response <- call (send_file lib buf (lit "image/png")) ;;
        let response := add_security_headers (unicode_lower lib) response in
        logger INFO (lit "Successfully generated " ++ generate_type) ;;;
        ret (File response)
    end.

(** [generate_code]: one request, starting from an empty log.  (The
    traceback that [exc_info=True] adds to the last log record is not
    modelled.) *)
Definition generate_code (lib : Libs) (o : set_order) (req : Request)
  : outcome view_result * list log_record :=
  try_except (generate_code_try lib o req)
    (fun e =>
       logger ERROR (lit "Unexpected error in generate_code: " ++ e) ;;;
       ret (Plain (lit "Internal server error") 500))
    [].

Definition after_request (ul : str -> nat -> str) (response : Response)
  : Response :=
  let hs := headers response in
  let hs := set_header ul (lit "Access-Control-Allow-Origin") (lit "*") hs in
  let hs := set_header ul (lit "Access-Control-Allow-Methods")
              (lit "GET, OPTIONS") hs in
  let hs := set_header ul (lit "Access-Control-Allow-Headers")
              (lit "Content-Type") hs in
  {| data := data response; mimetype := mimetype response; headers := hs |}.


(** ** The validation rules as the specification lists them *)

(** The rejection reasons of the specification, and the message the code
    gives for each. *)
Inductive Reason :=
| MissingContent
| InvalidType
| BarcodeTooLong
| NonAsciiBarcode
| ContentTooLong.

Definition reason_text (o : set_order) (r : Reason) : str :=
  match r with
  | MissingContent => msg_missing_content
  | InvalidType => msg_invalid_type o
  | BarcodeTooLong => msg_barcode_too_long o
  | NonAsciiBarcode => msg_barcode_ascii
  | ContentTooLong => msg_content_too_long o
  end.

(** A rule is the condition under which it fails and its reason. *)
Definition rule : Type := (str -> str -> bool) * Reason.

Definition outside_ascii (c : char) : bool :=
  negb ((0 <=? ord c) && (ord c <? 128)).

(** Rules 1 to 4 of the specification, in its order. *)
Definition spec_rules : list rule :=
  [ (fun content _ => len content =? 0, MissingContent);
    (fun _ kind => negb (eqb kind qrcode_t || eqb kind barcode_t),
      InvalidType);
    (fun content kind => eqb kind barcode_t && (64 <? len content),
      BarcodeTooLong);
    (fun content kind => eqb kind barcode_t && existsb outside_ascii content,
      NonAsciiBarcode);
    (fun content kind => eqb kind qrcode_t && (1000 <? len content),
      ContentTooLong) ].

(** The first failing rule determines the reason; no failing rule is
    success. *)
Fixpoint first_failing (rules : list rule) (content kind : str)
  : option Reason :=
  match rules with
  | [] => None
  | (fails, r) :: rest =>
      if fails content kind then Some r else first_failing rest content kind
  end.

Definition validate_spec (content kind : str) : option Reason :=
  first_failing spec_rules content kind.

(** A ValidationResult as the pair the code returns. *)
Definition render (o : set_order) (v : option Reason) : bool * str :=
  match v with
  | None => (true, [])
  | Some r => (false, reason_text o r)
  end.

(** Number of bytes of the UTF-8 encoding of a string, the measure the
    length checks do not use. *)
Definition utf8_width (c : char) : Z :=
  if ord c <? 128 then 1
  else if ord c <? 2048 then 2
  else if ord c <? 65536 then 3
  else 4.

Definition utf8_len (s : str) : Z :=
  fold_right (fun c n => utf8_width c + n) 0 s.

(** A string made of white space only, as [str.isspace] has it. *)
Definition whitespace_only (s : str) : Prop :=
  s <> [] /\ Forall (fun c => isspace c = true) s.

(** Sample strings and libraries for the examples below. *)
Definition hello_cjk : str := lit "Hello" ++ [19990%N; 30028%N].

Definition sample_send_file (b : bytes) (m : str) : outcome Response :=
  Return {| data := b; mimetype := m; headers := [] |}.

(** Libraries whose Code128 writer fails. *)
Definition failing_barcode_lib : Libs :=
  {| unicode_lower := fun _ _ => [];
     code128_write := fun _ _ => Raise (lit "cannot open resource");
     qr_save_png := fun _ _ => Return [];
     send_file := sample_send_file |}.

(** Libraries whose QR encoder fails. *)
Definition failing_qr_lib : Libs :=
  {| unicode_lower := fun _ _ => [];
     code128_write := fun _ _ => Return [];
     qr_save_png := fun _ _ => Raise (lit "Invalid version (was 41, expected 1 to 40)");
     send_file := sample_send_file |}.

(** ** Further definitions: headers read back, the request as the
    handler sees it, the configuration loaded from the environment *)

(** [response.headers.get(k)]: the value of the first entry of that
    name, names compared without regard to case. *)
Fixpoint get_header (ul : str -> nat -> str) (k : str)
  (hs : list (str * str)) : option str :=
  match hs with
  | [] => None
  | (k', v') :: hs' =>
      if name_eqb ul k' k then Some v' else get_header ul k hs'
  end.

(** A response that already carries conflicting headers: a frame option
    under a lower-case name and two cache directives. *)
Definition stale_response : Response :=
  {| data := [Byte.x89; Byte.x50];
     mimetype := lit "image/png";
     headers :=
       [ (lit "x-frame-options", lit "SAMEORIGIN");
         (lit "Content-Length", lit "2");
         (lit "Cache-Control", lit "public");
         (lit "cache-control", lit "max-age=60") ] |}.

(** Whether the name of a header entry is none of [names]. *)
Definition not_named_any (ul : str -> nat -> str) (names : list str)
  (entry : str * str) : bool :=
  negb (existsb (fun k => named ul k entry) names).

(** Two characters that are the same letter: equal, or the second a
    lower-case ASCII letter and the first its capital. *)
Definition same_letter (a b : char) : bool :=
  N.eqb a b
  || ((97 <=? ord b) && (ord b <=? 122) && (ord a =? ord b - 32)).

(** [t] is a case variant of the lower-case word [r]: the same letters,
    each in either case. *)
Fixpoint case_variant (t r : str) : bool :=
  match t, r with
  | [], [] => true
  | a :: t', b :: r' => same_letter a b && case_variant t' r'
  | _, _ => false
  end.

(** The two values [generate_code] computes from the query string before
    anything else. *)
Definition req_content (req : Request) : str :=
  strip (args_get (arg_content req) []).

Definition req_type (lib : Libs) (req : Request) : str :=
  lower (unicode_lower lib) (args_get (arg_type req) qrcode_t).

(** The level of the last record of a log. *)
Definition last_level (log : list log_record) : option level :=
  match rev log with
  | [] => None
  | (lv, _) :: _ => Some lv
  end.

(** [os.environ]: a mapping from names to values. *)
Definition environ : Type := list (str * str).

Fixpoint environ_lookup (env : environ) (k : str) : option str :=
  match env with
  | [] => None
  | (k', v) :: env' => if eqb k' k then Some v else environ_lookup env' k
  end.

(** [os.environ.get(k, default)] with a string default. *)
Definition environ_get (env : environ) (k default : str) : str :=
  match environ_lookup env k with
  | Some v => v
  | None => default
  end.

(** [s.split(sep)] for a separator of one character. *)
Fixpoint split_on (sep : char) (s : str) : list str :=
  match s with
  | [] => [[]]
  | c :: s' =>
      if N.eqb c sep then [] :: split_on sep s'
      else match split_on sep s' with
           | [] => [[c]]
           | x :: rest => (c :: x) :: rest
           end
  end.

Definition comma : char := 44%N.

(** The fields of [Config] that [__post_init__] loads from the
    environment. *)
Record EnvConfig := mkEnvConfig {
  DEBUG : bool;
  DEFAULT_PORT : Z;
  SWAGGER_HOST : str;
  SWAGGER_SCHEMES : list str
}.

(** [Config.__post_init__], for the default field values.  [py_int] is
    the interpreter's [int] on a string, which raises on a string that
    is not a number; the default of PORT is the int 8080 itself. *)
Definition post_init (py_int : str -> outcome Z) (ul : str -> nat -> str)
  (env : environ) : outcome EnvConfig :=
  let debug :=
    eqb (lower ul (environ_get env (lit "DEBUG") (lit "False"))) (lit "true") in
  match
    match environ_lookup env (lit "PORT") with
    | Some v => py_int v
    | None => Return 8080
    end
  with
  | Raise e => Raise e
  | Return port =>
      let host :=
        environ_get env (lit "SWAGGER_HOST") (lit "localhost:" ++ of_int port) in
      let schemes_env :=
        environ_get env (lit "SWAGGER_SCHEMES") (lit "http,https") in
      Return {| DEBUG := debug;
                DEFAULT_PORT := port;
                SWAGGER_HOST := host;
                SWAGGER_SCHEMES := map strip (split_on comma schemes_env) |}
  end.

(** The eight headers the service sets: five by [add_security_headers],
    three by [after_request]. *)
Definition security_headers : list (str * str) :=
  [ (lit "X-Content-Type-Options", lit "nosniff");
    (lit "X-Frame-Options", lit "DENY");
    (lit "X-XSS-Protection", lit "1; mode=block");
    (lit "Content-Security-Policy", lit "default-src 'none'; img-src 'self'");
    (lit "Cache-Control",
      lit "no-store, no-cache, must-revalidate, max-age=0") ].

Definition cors_headers : list (str * str) :=
  [ (lit "Access-Control-Allow-Origin", lit "*");
    (lit "Access-Control-Allow-Methods", lit "GET, OPTIONS");
    (lit "Access-Control-Allow-Headers", lit "Content-Type") ].

(** Libraries whose encoders and [send_file] all succeed, and libraries
    whose [send_file] fails. *)
Definition working_lib : Libs :=
  {| unicode_lower := fun _ _ => [];
     code128_write := fun _ _ => Return [Byte.x89; Byte.x50];
     qr_save_png := fun _ _ => Return [Byte.x89; Byte.x50; Byte.x4e];
     send_file := sample_send_file |}.

Definition failing_send_lib : Libs :=
  {| unicode_lower := fun _ _ => [];
     code128_write := fun _ _ => Return [];
     qr_save_png := fun _ _ => Return [];
     send_file := fun _ _ => Raise (lit "No such file or directory") |}.

(** Libraries whose encoders refuse every content [validate_input] would
    not accept. *)
Definition strict_lib : Libs :=
  {| unicode_lower := fun _ _ => [];
     code128_write := fun c _ =>
       if fst (validate_input QrcodeFirst c barcode_t)
       then Return [Byte.x89; Byte.x50]
       else Raise (lit "unsupported content");
     qr_save_png := fun c _ =>
       if fst (validate_input QrcodeFirst c qrcode_t)
       then Return [Byte.x89; Byte.x50; Byte.x4e]
       else Raise (lit "unsupported content");
     send_file := sample_send_file |}.

(** A sample [int]: decimal digits only. *)
Fixpoint digits_value (acc : Z) (s : str) : option Z :=
  match s with
  | [] => Some acc
  | c :: s' =>
      if (48 <=? ord c) && (ord c <=? 57)
      then digits_value (10 * acc + (ord c - 48)) s'
      else None
  end.

Definition sample_int (s : str) : outcome Z :=
  match s with
  | [] => Raise (lit "invalid literal for int()")
  | _ :: _ =>
      match digits_value 0 s with
      | Some n => Return n
      | None => Raise (lit "invalid literal for int()")
      end
  end.

(** ** Strings: basic facts *)

Lemma eqb_refl (a : str) : eqb a a = true.
Proof.
  induction a as [|x a IH]; simpl; [reflexivity|].
  now rewrite N.eqb_refl, IH.
Qed.

Lemma eqb_eq (a b : str) : eqb a b = true <-> a = b.
Proof.
  split.
  - revert b. induction a as [|x a IH]; intros [|y b] H; simpl in H;
      try discriminate; [reflexivity|].
    apply andb_true_iff in H. destruct H as [Hx Hr].
    apply N.eqb_eq in Hx. apply IH in Hr. now subst.
  - intros ->. apply eqb_refl.
Qed.

Lemma eqb_neq (a b : str) : eqb a b = false <-> a <> b.
Proof.
  rewrite <- eqb_eq. destruct (eqb a b); split; congruence.
Qed.

Lemma len_nonneg (s : str) : 0 <= len s.
Proof. unfold len. lia. Qed.

Lemma len_zero (s : str) : (len s =? 0) = negb (truthy s).
Proof.
  destruct s as [|c s]; [reflexivity|].
  unfold len. simpl truthy. simpl negb.
  apply Z.eqb_neq. simpl List.length. lia.
Qed.

Lemma mem_allowed (o : set_order) (k : str) :
  mem k (ALLOWED_TYPES (config o)) = eqb k qrcode_t || eqb k barcode_t.
Proof.
  destruct o; unfold mem; simpl existsb; rewrite orb_false_r;
    [reflexivity | apply orb_comm].
Qed.

Lemma not_all_ascii (s : str) :
  negb (forallb (fun c => (0 <=? ord c) && (ord c <? 128)) s)
  = existsb outside_ascii s.
Proof.
  induction s as [|c s IH]; simpl; [reflexivity|].
  rewrite negb_andb, IH. reflexivity.
Qed.

Lemma existsb_outside_ascii (s : str) :
  existsb outside_ascii s = true <-> exists c, In c s /\ 128 <= ord c.
Proof.
  rewrite existsb_exists. unfold outside_ascii, ord.
  split; intros [c [Hin Hc]]; exists c; split; auto.
  - apply negb_true_iff, andb_false_iff in Hc.
    destruct Hc as [Hc|Hc]; [apply Z.leb_gt in Hc | apply Z.ltb_ge in Hc]; lia.
  - apply negb_true_iff, andb_false_iff. right. apply Z.ltb_ge. lia.
Qed.

Lemma all_ascii_forallb (s : str) :
  Forall (fun c => ord c < 128) s ->
  forallb (fun c => (0 <=? ord c) && (ord c <? 128)) s = true.
Proof.
  intros H. apply forallb_forall. intros c Hin.
  rewrite Forall_forall in H. specialize (H c Hin).
  apply andb_true_iff. split; [apply Z.leb_le; unfold ord; lia|].
  now apply Z.ltb_lt.
Qed.

Lemma barcode_not_qrcode : eqb barcode_t qrcode_t = false.
Proof. reflexivity. Qed.

(** ** [validate_input], branch by branch *)

Lemma validate_input_barcode (o : set_order) (c : char) (s : str) :
  validate_input o (c :: s) barcode_t =
    if len (c :: s) >? 64 then (false, msg_barcode_too_long o)
    else if existsb outside_ascii (c :: s) then (false, msg_barcode_ascii)
    else (true, []).
Proof.
  unfold validate_input. rewrite mem_allowed, <- not_all_ascii.
  reflexivity.
Qed.

Lemma validate_input_qrcode (o : set_order) (c : char) (s : str) :
  validate_input o (c :: s) qrcode_t =
    if len (c :: s) >? 1000 then (false, msg_content_too_long o)
    else (true, []).
Proof.
  unfold validate_input. rewrite mem_allowed. reflexivity.
Qed.

Lemma validate_input_other (o : set_order) (c : char) (s k : str) :
  k <> qrcode_t -> k <> barcode_t ->
  validate_input o (c :: s) k = (false, msg_invalid_type o).
Proof.
  intros Hq Hb. unfold validate_input. rewrite mem_allowed.
  apply eqb_neq in Hq, Hb. rewrite Hq, Hb. reflexivity.
Qed.

Lemma validate_input_qrcode_within (o : set_order) (s : str) :
  s <> [] -> len s <= 1000 -> validate_input o s qrcode_t = (true, []).
Proof.
  intros Hs Hlen. destruct s as [|c s]; [contradiction|].
  rewrite validate_input_qrcode.
  destruct (Z.gtb_spec (len (c :: s)) 1000); [lia | reflexivity].
Qed.

Lemma reason_text_nonempty (o : set_order) (r : Reason) :
  reason_text o r <> [].
Proof. destruct o, r; discriminate. Qed.

Lemma reason_text_inj (o : set_order) (r1 r2 : Reason) :
  reason_text o r1 = reason_text o r2 -> r1 = r2.
Proof. destruct o, r1, r2; intros H; try reflexivity; discriminate H. Qed.

Lemma validate_input_refines (o : set_order) (content kind : str) :
  validate_input o content kind = render o (validate_spec content kind).
Proof.
  destruct content as [|c s]; [reflexivity|].
  unfold validate_spec, spec_rules, first_failing.
  rewrite len_zero. simpl truthy. simpl negb. cbv iota.
  destruct (eqb kind barcode_t) eqn:Hb.
  - apply eqb_eq in Hb. subst kind.
    rewrite validate_input_barcode, barcode_not_qrcode.
    simpl negb. simpl andb. cbv iota.
    rewrite Z.gtb_ltb.
    destruct (64 <? len (c :: s)); [reflexivity|].
    simpl existsb.
    destruct (outside_ascii c || existsb outside_ascii s); reflexivity.
  - destruct (eqb kind qrcode_t) eqn:Hq.
    + apply eqb_eq in Hq. subst kind.
      rewrite validate_input_qrcode. simpl negb. simpl andb. cbv iota.
      rewrite Z.gtb_ltb.
      destruct (1000 <? len (c :: s)); reflexivity.
    + apply eqb_neq in Hb, Hq.
      rewrite (validate_input_other o c s kind Hq Hb). reflexivity.
Qed.

(** ** The claims *)

Lemma reason_texts_distinct (o : set_order) :
  NoDup (map (reason_text o)
           [MissingContent; InvalidType; BarcodeTooLong; NonAsciiBarcode;
            ContentTooLong]).
Proof.
  destruct o;
    repeat (apply NoDup_cons; [simpl; intuition discriminate|]);
    apply NoDup_nil.
Qed.

(** C1: [validate_input] applies the rules of the specification in their
    order, the first failing one giving the reason: empty content, then a
    type outside the allowed set, then for a barcode the 64-character
    limit followed by the ASCII check, for a QR code the 1000-character
    limit, and success with an empty reason otherwise.  The five reasons
    are the texts below, different from one another; the invalid-type
    reason lists both allowed types, in the order the set gives them.
    Length counts code points: a string of 1000 three-byte characters is
    within the limit. *)
Theorem validate_input_applies_rules_in_order
  (o : set_order) (content kind : str) :
  validate_input o content kind = render o (validate_spec content kind)
  /\ (reason_text o MissingContent = lit "Missing 'content' parameter"
      /\ reason_text o InvalidType
         = match o with
           | QrcodeFirst =>
               lit "Invalid type. Must be one of: qrcode, barcode"
           | BarcodeFirst =>
               lit "Invalid type. Must be one of: barcode, qrcode"
           end
      /\ reason_text o BarcodeTooLong
         = lit "Barcode content exceeds maximum length of 64 characters"
      /\ reason_text o NonAsciiBarcode
         = lit "Barcode content must contain only ASCII characters"
      /\ reason_text o ContentTooLong
         = lit "Content exceeds maximum length of 1000 characters")
  /\ Forall (fun t => contains t (reason_text o InvalidType) = true)
       (ALLOWED_TYPES (config o))
  /\ contains qrcode_t (reason_text o InvalidType) = true
  /\ contains barcode_t (reason_text o InvalidType) = true
  /\ NoDup (map (reason_text o)
              [MissingContent; InvalidType; BarcodeTooLong;
               NonAsciiBarcode; ContentTooLong])
  /\ (let s := repeat 19990%N 1000 in
      len s = 1000 /\ utf8_len s = 3000
      /\ validate_input o s qrcode_t = (true, [])).
Proof.
  split; [apply validate_input_refines|].
  split; [destruct o; repeat split; reflexivity|].
  split; [destruct o; repeat constructor|].
  split; [destruct o; reflexivity|].
  split; [destruct o; reflexivity|].
  split; [apply reason_texts_distinct|].
  cbv zeta. repeat split; try (vm_compute; reflexivity).
  destruct o; vm_compute; reflexivity.
Qed.

(** C3, as amended: for a string of at most 64 code points with at least
    one character of code point 128 or more, [validate_input] with kind
    barcode fails with the ASCII reason; for such a string of more than
    64 code points the length check comes first and the reason is the
    64-character limit. *)
Theorem validate_input_barcode_non_ascii (o : set_order) (s : str) :
  (exists c, In c s /\ 128 <= ord c) ->
  (len s <= 64 -> validate_input o s barcode_t = (false, msg_barcode_ascii))
  /\ (64 < len s ->
      validate_input o s barcode_t = (false, msg_barcode_too_long o)).
Proof.
  intros Hex.
  assert (Hne : existsb outside_ascii s = true)
    by now apply existsb_outside_ascii.
  destruct s as [|c s]; [discriminate Hne|].
  rewrite validate_input_barcode, Hne.
  split; intros Hlen; destruct (Z.gtb_spec (len (c :: s)) 64);
    try reflexivity; lia.
Qed.

Lemma validate_input_barcode_non_ascii_witness :
  (exists c, In c hello_cjk /\ 128 <= ord c)
  /\ len hello_cjk <= 64
  /\ validate_input QrcodeFirst hello_cjk barcode_t
     = (false, msg_barcode_ascii).
Proof.
  assert (Hex : exists c, In c hello_cjk /\ 128 <= ord c).
  { exists 19990%N. split; [simpl; tauto | vm_compute; discriminate]. }
  assert (Hlen : len hello_cjk <= 64) by (vm_compute; discriminate).
  split; [exact Hex|]. split; [exact Hlen|].
  exact (proj1 (validate_input_barcode_non_ascii QrcodeFirst hello_cjk Hex)
           Hlen).
Defined.

(** C3 as stated fails: 65 characters, all of code point 233, are
    rejected for their length, not with the ASCII reason. *)
Lemma validate_input_barcode_non_ascii_counterexample :
  let s := repeat 233%N 65 in
  (exists c, In c s /\ 128 <= ord c)
  /\ validate_input QrcodeFirst s barcode_t
     = (false, msg_barcode_too_long QrcodeFirst)
  /\ validate_input QrcodeFirst s barcode_t <> (false, msg_barcode_ascii).
Proof.
  cbv zeta. split; [|split].
  - exists 233%N. split; [left; reflexivity | vm_compute; discriminate].
  - vm_compute. reflexivity.
  - vm_compute. discriminate.
Qed.

(** C4: with empty content [validate_input] fails with the
    missing-content reason whatever the kind is, recognized or not. *)
Theorem validate_input_empty_content (o : set_order) (k : str) :
  validate_input o [] k = (false, msg_missing_content).
Proof. reflexivity. Qed.

(** C5, as amended: for every non-empty string and every kind outside
    qrcode and barcode, [validate_input] fails with the invalid-type
    reason. *)
Theorem validate_input_unknown_kind (o : set_order) (s k : str) :
  s <> [] -> k <> qrcode_t -> k <> barcode_t ->
  validate_input o s k = (false, msg_invalid_type o).
Proof.
  intros Hs Hq Hb. destruct s as [|c s]; [contradiction|].
  now apply validate_input_other.
Qed.

Lemma validate_input_unknown_kind_witness :
  validate_input BarcodeFirst (lit "test") (lit "unknownkind")
  = (false, msg_invalid_type BarcodeFirst).
Proof.
  apply (validate_input_unknown_kind BarcodeFirst (lit "test")
           (lit "unknownkind")); discriminate.
Defined.

(** C5 as stated fails: with empty content the reason for an unknown
    kind is the missing-content one. *)
Lemma validate_input_unknown_kind_counterexample :
  let k := lit "unknownkind" in
  mem k (ALLOWED_TYPES (config QrcodeFirst)) = false
  /\ validate_input QrcodeFirst [] k = (false, msg_missing_content)
  /\ validate_input QrcodeFirst [] k <> (false, msg_invalid_type QrcodeFirst).
Proof.
  cbv zeta. split; [|split].
  - reflexivity.
  - reflexivity.
  - vm_compute. discriminate.
Qed.

(** C6: the reason [validate_input] returns is empty exactly when its
    valid flag is true. *)
Theorem validate_input_reason_empty_iff_valid
  (o : set_order) (content kind : str) :
  snd (validate_input o content kind) = []
  <-> fst (validate_input o content kind) = true.
Proof.
  rewrite validate_input_refines.
  destruct (validate_spec content kind) as [r|]; simpl.
  - split; intros H; [|discriminate H].
    exfalso. exact (reason_text_nonempty o r H).
  - split; reflexivity.
Qed.

(** C7: a non-empty all-ASCII string of at most 64 code points is valid
    as barcode content; an all-ASCII string of exactly 65 is rejected
    with the length reason, whose text contains 64. *)
Theorem validate_input_barcode_ascii_length (o : set_order) (s : str) :
  Forall (fun c => ord c < 128) s ->
  (s <> [] -> len s <= 64 -> validate_input o s barcode_t = (true, []))
  /\ (len s = 65 ->
      validate_input o s barcode_t = (false, msg_barcode_too_long o)
      /\ contains (lit "64") (msg_barcode_too_long o) = true).
Proof.
  intros Hascii. split.
  - intros Hs Hlen. destruct s as [|c s]; [contradiction|].
    rewrite validate_input_barcode, <- not_all_ascii,
      (all_ascii_forallb _ Hascii).
    destruct (Z.gtb_spec (len (c :: s)) 64); [lia | reflexivity].
  - intros Hlen. split; [|destruct o; vm_compute; reflexivity].
    destruct s as [|c s]; [discriminate Hlen|].
    rewrite validate_input_barcode.
    destruct (Z.gtb_spec (len (c :: s)) 64); [reflexivity | lia].
Qed.

Lemma validate_input_barcode_ascii_length_witness :
  validate_input QrcodeFirst (lit "ABC123") barcode_t = (true, [])
  /\ validate_input QrcodeFirst (repeat 65%N 65) barcode_t
     = (false, msg_barcode_too_long QrcodeFirst).
Proof.
  split.
  - apply (validate_input_barcode_ascii_length QrcodeFirst (lit "ABC123")).
    + repeat constructor.
    + discriminate.
    + vm_compute. discriminate.
  - apply (validate_input_barcode_ascii_length QrcodeFirst (repeat 65%N 65)).
    + apply Forall_forall. intros c Hc. apply repeat_spec in Hc. subst c.
      reflexivity.
    + vm_compute. reflexivity.
Defined.

(** C8: a non-empty string of at most 1000 code points, ASCII or not, is
    valid as QR content; a string of 1001 is rejected with the
    1000-character-limit reason. *)
Theorem validate_input_qrcode_length (o : set_order) (s : str) :
  (s <> [] -> len s <= 1000 -> validate_input o s qrcode_t = (true, []))
  /\ (len s = 1001 ->
      validate_input o s qrcode_t = (false, msg_content_too_long o)).
Proof.
  split.
  - apply validate_input_qrcode_within.
  - intros Hlen. destruct s as [|c s]; [discriminate Hlen|].
    rewrite validate_input_qrcode.
    destruct (Z.gtb_spec (len (c :: s)) 1000); [reflexivity | lia].
Qed.

Lemma validate_input_qrcode_length_witness :
  validate_input QrcodeFirst hello_cjk qrcode_t = (true, [])
  /\ validate_input QrcodeFirst (repeat 120%N 1001) qrcode_t
     = (false, msg_content_too_long QrcodeFirst).
Proof.
  split.
  - apply (validate_input_qrcode_length QrcodeFirst hello_cjk).
    + discriminate.
    + vm_compute. discriminate.
  - apply (validate_input_qrcode_length QrcodeFirst (repeat 120%N 1001)).
    vm_compute. reflexivity.
Defined.

(** ** The handler: basic facts *)

Lemma lower_qrcode (ul : str -> nat -> str) : lower ul qrcode_t = qrcode_t.
Proof. reflexivity. Qed.

Lemma lower_barcode (ul : str -> nat -> str) : lower ul barcode_t = barcode_t.
Proof. reflexivity. Qed.

Lemma lstrip_whitespace (s : str) :
  Forall (fun c => isspace c = true) s -> lstrip s = [].
Proof.
  induction 1 as [|c s Hc _ IH]; [reflexivity|].
  simpl. now rewrite Hc.
Qed.

Lemma strip_whitespace (s : str) :
  Forall (fun c => isspace c = true) s -> strip s = [].
Proof.
  intros H. unfold strip. now rewrite (lstrip_whitespace s H).
Qed.

(** The outer handler catches every exception: the view always returns. *)
Lemma generate_code_returns (lib : Libs) (o : set_order) (req : Request) :
  exists v log, generate_code lib o req = (Return v, log).
Proof.
  unfold generate_code, try_except.
  destruct (generate_code_try lib o req []) as [[v|e] l]; eauto.
  unfold bind, logger, ret. eauto.
Qed.

(** What the barcode branch answers when the Code128 writer raises. *)
Lemma generate_code_barcode_failure
  (lib : Libs) (o : set_order) (req : Request) (e : str) :
  let content := strip (args_get (arg_content req) []) in
  validate_input o content barcode_t = (true, []) ->
  lower (unicode_lower lib) (args_get (arg_type req) qrcode_t) = barcode_t ->
  code128_write lib content (barcode_options o) = Raise e ->
  generate_code lib o req =
    (Return (Plain (lit "Barcode generation error: " ++ e) 500),
     [(INFO, lit "Generating barcode for content: " ++ prefix 20 content
             ++ lit "...");
      (ERROR, lit "Barcode generation failed: " ++ e)]).
Proof.
  intros content Hv Ht He.
  unfold generate_code, generate_code_try. fold content.
  rewrite Ht, Hv. cbv beta iota. rewrite eqb_refl. simpl negb. cbv iota.
  unfold try_except, bind, call, logger, ret. rewrite He. reflexivity.
Qed.

(** The same for the QR branch. *)
Lemma generate_code_qr_failure
  (lib : Libs) (o : set_order) (req : Request) (e : str) :
  let content := strip (args_get (arg_content req) []) in
  validate_input o content qrcode_t = (true, []) ->
  lower (unicode_lower lib) (args_get (arg_type req) qrcode_t) = qrcode_t ->
  qr_save_png lib content (qr_options o) = Raise e ->
  generate_code lib o req =
    (Return (Plain (lit "QR code generation error: " ++ e) 500),
     [(INFO, lit "Generating QR code for content: " ++ prefix 20 content
             ++ lit "...");
      (ERROR, lit "QR code generation failed: " ++ e)]).
Proof.
  intros content Hv Ht He.
  unfold generate_code, generate_code_try. fold content.
  rewrite Ht, Hv. cbv beta iota.
  change (eqb qrcode_t barcode_t) with false. simpl negb. cbv iota.
  unfold try_except, bind, call, logger, ret. rewrite He. reflexivity.
Qed.

Lemma contains_app_r (sub pre : str) : contains sub (pre ++ sub) = true.
Proof.
  assert (Hs : forall s, starts_with s s = true).
  { induction s as [|x s IH]; simpl; [reflexivity|].
    now rewrite N.eqb_refl, IH. }
  induction pre as [|x pre IH].
  - simpl. destruct sub; simpl; [reflexivity|].
    now rewrite N.eqb_refl, Hs.
  - simpl app. simpl contains. rewrite IH. apply orb_true_r.
Qed.

(** C2: on the request content=ABC123, type=barcode, with a Code128
    writer that raises an exception whose text is "cannot open resource",
    [generate_code] answers with status 500 and logs the failure, but the
    body it returns ends with the text of the exception.  The QR branch
    does the same with the text of its encoder's exception. *)
Theorem generate_code_returns_encoder_error_text :
  let e := lit "cannot open resource" in
  let e' := lit "Invalid version (was 41, expected 1 to 40)" in
  (generate_code failing_barcode_lib QrcodeFirst
     {| arg_content := Some (lit "ABC123");
        arg_type := Some (lit "barcode") |}
   = (Return (Plain (lit "Barcode generation error: " ++ e) 500),
      [(INFO, lit "Generating barcode for content: ABC123...");
       (ERROR, lit "Barcode generation failed: " ++ e)])
   /\ contains e (lit "Barcode generation error: " ++ e) = true)
  /\ (generate_code failing_qr_lib QrcodeFirst
        {| arg_content := Some (lit "Hello World"); arg_type := None |}
      = (Return (Plain (lit "QR code generation error: " ++ e') 500),
         [(INFO, lit "Generating QR code for content: Hello World...");
          (ERROR, lit "QR code generation failed: " ++ e')])
      /\ contains e' (lit "QR code generation error: " ++ e') = true).
Proof.
  cbv zeta. split; split; try apply contains_app_r.
  - now rewrite (generate_code_barcode_failure failing_barcode_lib QrcodeFirst
                   _ (lit "cannot open resource")).
  - now rewrite (generate_code_qr_failure failing_qr_lib QrcodeFirst
                   _ (lit "Invalid version (was 41, expected 1 to 40)")).
Qed.

Lemma lower_from_case_variant (ul : str -> nat -> str) (whole : str) :
  forall (t r : str) (i : nat),
    Forall (fun b => 97 <= ord b <= 122) r ->
    case_variant t r = true ->
    lower_from ul whole i t = r.
Proof.
  induction t as [|a t IH]; intros [|b r] i Hr H; simpl in H;
    try discriminate H; [reflexivity|].
  apply andb_true_iff in H. destruct H as [Hab Ht].
  inversion Hr as [|? ? Hb Hr']; subst.
  simpl lower_from. rewrite (IH r (S i) Hr' Ht).
  unfold same_letter in Hab. apply orb_true_iff in Hab.
  assert (Ha : (ord a <? 128) = true /\ ascii_lower a = b).
  { unfold ascii_lower. destruct Hab as [Hab|Hab].
    - apply N.eqb_eq in Hab. subst b. split; [apply Z.ltb_lt; lia|].
      replace (65 <=? ord a) with true by (symmetry; apply Z.leb_le; lia).
      replace (ord a <=? 90) with false by (symmetry; apply Z.leb_gt; lia).
      reflexivity.
    - apply andb_true_iff in Hab. destruct Hab as [_ Hab].
      apply Z.eqb_eq in Hab. split; [apply Z.ltb_lt; lia|].
      replace (65 <=? ord a) with true by (symmetry; apply Z.leb_le; lia).
      replace (ord a <=? 90) with true by (symmetry; apply Z.leb_le; lia).
      unfold ord in *. simpl andb. cbv iota. lia. }
  destruct Ha as [Ha1 Ha2]. now rewrite Ha1, Ha2.
Qed.

Lemma allowed_types_lower_case (o : set_order) (r : str) :
  In r (ALLOWED_TYPES (config o)) ->
  Forall (fun b => 97 <= ord b <= 122) r.
Proof.
  destruct o; simpl; intros [H|[H|[]]]; subst r;
    repeat constructor; discriminate.
Qed.

(** C9: the type parameter is matched without regard to case and
    defaults to qrcode.  For every spelling of a recognized type in
    capitals, small letters or a mix, the handler's lower-casing gives
    the recognized type, and the request gets the same answer and the
    same log as the request with the recognized, lower-case type; QRCODE,
    QRCode, BARCODE and BarCode are such spellings; a request without a
    type gets what a request with type qrcode gets. *)
Theorem generate_code_type_case_insensitive
  (lib : Libs) (o : set_order) (content : option str) :
  (forall t r : str,
      In r (ALLOWED_TYPES (config o)) ->
      case_variant t r = true ->
      lower (unicode_lower lib) t = r
      /\ generate_code lib o {| arg_content := content; arg_type := Some t |}
         = generate_code lib o
             {| arg_content := content; arg_type := Some r |})
  /\ (case_variant (lit "QRCODE") qrcode_t = true
      /\ case_variant (lit "QRCode") qrcode_t = true
      /\ case_variant (lit "BARCODE") barcode_t = true
      /\ case_variant (lit "BarCode") barcode_t = true
      /\ case_variant (lit "qrcode") qrcode_t = true
      /\ case_variant (lit "barcode") qrcode_t = false)
  /\ generate_code lib o
       {| arg_content := content; arg_type := Some (lit "QRCODE") |}
     = generate_code lib o
         {| arg_content := content; arg_type := Some qrcode_t |}
  /\ generate_code lib o {| arg_content := content; arg_type := None |}
     = generate_code lib o
         {| arg_content := content; arg_type := Some qrcode_t |}.
Proof.
  assert (Hcv : forall t r : str,
             In r (ALLOWED_TYPES (config o)) ->
             case_variant t r = true ->
             lower (unicode_lower lib) t = r).
  { intros t r Hr Ht. unfold lower.
    apply lower_from_case_variant; [|exact Ht].
    now apply (allowed_types_lower_case o). }
  split; [|split; [|split]].
  - intros t r Hr Ht. split; [now apply Hcv|].
    pose proof (Hcv t r Hr Ht) as Hlow.
    pose proof (Hcv r r Hr) as Hself.
    unfold generate_code, generate_code_try.
    cbn [args_get arg_type arg_content].
    rewrite Hlow, Hself; [reflexivity|].
    clear - Hr. destruct o; simpl in Hr; destruct Hr as [H|[H|[]]];
      subst r; reflexivity.
  - repeat split.
  - reflexivity.
  - reflexivity.
Qed.

Lemma generate_code_type_case_insensitive_witness :
  lower (unicode_lower working_lib) (lit "BarCode") = barcode_t
  /\ generate_code working_lib QrcodeFirst
       {| arg_content := Some (lit "Test");
          arg_type := Some (lit "BarCode") |}
     = generate_code working_lib QrcodeFirst
         {| arg_content := Some (lit "Test"); arg_type := Some barcode_t |}.
Proof.
  apply (proj1 (generate_code_type_case_insensitive working_lib QrcodeFirst
                  (Some (lit "Test"))) (lit "BarCode") barcode_t).
  - right. left. reflexivity.
  - reflexivity.
Defined.

(** C10, as amended: [validate_input] does not trim.  A string of white
    space only and of at most 1000 code points is valid QR content for
    it; a request whose content is white space only, of any length and
    with any type, is answered with the missing-content reason and status
    400, because [generate_code] strips the content first. *)
Theorem validate_input_does_not_trim
  (lib : Libs) (o : set_order) (s : str) (ty : option str) :
  whitespace_only s ->
  (len s <= 1000 -> validate_input o s qrcode_t = (true, []))
  /\ strip s = []
  /\ fst (generate_code lib o {| arg_content := Some s; arg_type := ty |})
     = Return (Plain msg_missing_content 400).
Proof.
  intros [Hne Hws]. split; [|split].
  - intros Hlen. now apply validate_input_qrcode_within.
  - now apply strip_whitespace.
  - unfold generate_code, generate_code_try.
    cbn [args_get arg_content].
    rewrite (strip_whitespace s Hws). reflexivity.
Qed.

Lemma validate_input_does_not_trim_witness :
  validate_input QrcodeFirst (lit "   ") qrcode_t = (true, [])
  /\ fst (generate_code failing_qr_lib QrcodeFirst
            {| arg_content := Some (lit "   "); arg_type := None |})
     = Return (Plain msg_missing_content 400).
Proof.
  assert (Hws : whitespace_only (lit "   ")).
  { split; [discriminate | repeat constructor]. }
  split.
  - apply (validate_input_does_not_trim failing_qr_lib QrcodeFirst
             (lit "   ") None Hws).
    vm_compute. discriminate.
  - apply (validate_input_does_not_trim failing_qr_lib QrcodeFirst
             (lit "   ") None Hws).
Defined.

(** C10 as stated fails: 1001 spaces are white space only, and
    [validate_input] rejects them for their length. *)
Lemma validate_input_does_not_trim_counterexample :
  let s := repeat 32%N 1001 in
  whitespace_only s
  /\ validate_input QrcodeFirst s qrcode_t
     = (false, msg_content_too_long QrcodeFirst)
  /\ validate_input QrcodeFirst s qrcode_t <> (true, []).
Proof.
  cbv zeta. split; [|split].
  - split; [discriminate|].
    apply Forall_forall. intros c Hc. apply repeat_spec in Hc. now subst c.
  - vm_compute. reflexivity.
  - vm_compute. discriminate.
Qed.

(** ** More on [validate_input] *)

Lemma all_ascii_iff (s : str) :
  existsb outside_ascii s = false <-> Forall (fun c => ord c < 128) s.
Proof.
  induction s as [|c s IH]; simpl.
  - split; [constructor | reflexivity].
  - rewrite orb_false_iff, IH. unfold outside_ascii at 1.
    rewrite negb_false_iff, andb_true_iff, Z.leb_le, Z.ltb_lt.
    split.
    + intros [[_ Hc] Hs]. now constructor.
    + intros Hall. inversion Hall; subst. unfold ord.
      repeat split; auto; lia.
Qed.

Lemma validate_input_valid_inv (o : set_order) (c k : str) :
  fst (validate_input o c k) = true ->
  validate_input o c k = (true, [])
  /\ c <> [] /\ (k = qrcode_t \/ k = barcode_t).
Proof.
  intros H. rewrite validate_input_refines in H |- *.
  destruct (validate_spec c k) eqn:Hv; [discriminate H|].
  split; [reflexivity|].
  unfold validate_spec, spec_rules, first_failing in Hv.
  destruct c as [|x c]; [discriminate Hv|].
  split; [discriminate|].
  rewrite len_zero in Hv. simpl truthy in Hv. simpl negb in Hv.
  cbv iota in Hv.
  destruct (eqb k qrcode_t) eqn:Hq; [left; now apply eqb_eq|].
  destruct (eqb k barcode_t) eqn:Hb; [right; now apply eqb_eq|].
  discriminate Hv.
Qed.

Lemma validate_input_barcode_valid_iff (o : set_order) (c : str) :
  fst (validate_input o c barcode_t) = true
  <-> c <> [] /\ len c <= 64 /\ Forall (fun ch => ord ch < 128) c.
Proof.
  destruct c as [|x c].
  - simpl. split; [discriminate | intros [H _]; now elim H].
  - rewrite validate_input_barcode, <- all_ascii_iff.
    destruct (Z.gtb_spec (len (x :: c)) 64) as [Hgt|Hle].
    + simpl. split; [discriminate | intros [_ [H _]]; lia].
    + destruct (existsb outside_ascii (x :: c)); simpl.
      * split; [discriminate | intros [_ [_ H]]; discriminate H].
      * split; [|reflexivity]. intros _. repeat split; [discriminate | lia].
Qed.

Lemma validate_input_qrcode_valid_iff (o : set_order) (c : str) :
  fst (validate_input o c qrcode_t) = true <-> c <> [] /\ len c <= 1000.
Proof.
  destruct c as [|x c].
  - simpl. split; [discriminate | intros [H _]; now elim H].
  - rewrite validate_input_qrcode.
    destruct (Z.gtb_spec (len (x :: c)) 1000) as [Hgt|Hle]; simpl.
    + split; [discriminate | intros [_ H]; lia].
    + split; [|reflexivity]. intros _. split; [discriminate | lia].
Qed.

Lemma qrcode_neq_barcode : qrcode_t <> barcode_t.
Proof. discriminate. Qed.

(** X1: [validate_input] accepts exactly the non-empty contents that are
    either of kind qrcode and at most 1000 code points long, or of kind
    barcode, at most 64 code points long and all below code point 128. *)
Theorem validate_input_accepts_iff (o : set_order) (content kind : str) :
  fst (validate_input o content kind) = true
  <-> content <> []
      /\ ((kind = qrcode_t /\ len content <= 1000)
          \/ (kind = barcode_t /\ len content <= 64
              /\ Forall (fun ch => ord ch < 128) content)).
Proof.
  split.
  - intros H. destruct (validate_input_valid_inv o content kind H)
      as [_ [Hne [Hk|Hk]]]; subst kind; (split; [exact Hne|]).
    + left. split; [reflexivity|].
      now apply (validate_input_qrcode_valid_iff o content).
    + right. split; [reflexivity|].
      now apply (validate_input_barcode_valid_iff o content).
  - intros [Hne [[Hk Hlen]|[Hk [Hlen Hascii]]]]; subst kind.
    + now apply validate_input_qrcode_valid_iff.
    + now apply validate_input_barcode_valid_iff.
Qed.

(** X2: the verdict of [validate_input], and its reason for empty content
    and for a recognized kind, do not depend on the order in which the
    set ALLOWED_TYPES is iterated; for a non-empty content with an
    unknown kind the message lists the types in that order, so the two
    orders give different messages. *)
Theorem validate_input_set_order (o o' : set_order) (content kind : str) :
  fst (validate_input o content kind) = fst (validate_input o' content kind)
  /\ (content = [] \/ kind = qrcode_t \/ kind = barcode_t ->
      validate_input o content kind = validate_input o' content kind)
  /\ (content <> [] -> kind <> qrcode_t -> kind <> barcode_t ->
      validate_input QrcodeFirst content kind
      <> validate_input BarcodeFirst content kind).
Proof.
  assert (Hrec : content = [] \/ kind = qrcode_t \/ kind = barcode_t ->
                 validate_input o content kind
                 = validate_input o' content kind).
  { intros [Hc|Hk].
    - subst content. reflexivity.
    - rewrite !validate_input_refines.
      destruct (validate_spec content kind) as [r|] eqn:Hv; [|reflexivity].
      destruct r; try (destruct o, o'; reflexivity).
      exfalso. unfold validate_spec, spec_rules, first_failing in Hv.
      destruct (len content =? 0); [discriminate Hv|].
      destruct Hk as [Hk|Hk]; subst kind;
        rewrite eqb_refl, ?orb_true_r in Hv; simpl orb in Hv;
        simpl negb in Hv; cbv iota in Hv;
        repeat match type of Hv with
               | (if ?b then _ else _) = _ => destruct b
               end; discriminate Hv. }
  split; [|split].
  - destruct content as [|c s]; [reflexivity|].
    destruct (eqb kind qrcode_t) eqn:Hq;
      [apply eqb_eq in Hq; now rewrite Hrec by auto|].
    destruct (eqb kind barcode_t) eqn:Hb;
      [apply eqb_eq in Hb; now rewrite Hrec by auto|].
    apply eqb_neq in Hq, Hb.
    now rewrite !(validate_input_other _ c s kind Hq Hb).
  - exact Hrec.
  - intros Hc Hq Hb. destruct content as [|c s]; [contradiction|].
    rewrite !(validate_input_other _ c s kind Hq Hb). discriminate.
Qed.

Lemma validate_input_set_order_witness :
  validate_input QrcodeFirst (lit "test") barcode_t
  = validate_input BarcodeFirst (lit "test") barcode_t
  /\ validate_input QrcodeFirst (lit "test") (lit "invalid_type")
     <> validate_input BarcodeFirst (lit "test") (lit "invalid_type").
Proof.
  split.
  - apply (validate_input_set_order QrcodeFirst BarcodeFirst (lit "test")
             barcode_t).
    right. right. reflexivity.
  - apply (validate_input_set_order QrcodeFirst BarcodeFirst (lit "test")
             (lit "invalid_type")); discriminate.
Defined.

(** ** [strip] is idempotent *)

Lemma lstrip_cases (s : str) :
  lstrip s = [] \/ exists c t, lstrip s = c :: t /\ isspace c = false.
Proof.
  induction s as [|c s IH]; [now left|].
  simpl. destruct (isspace c) eqn:Hc; [exact IH|].
  right. now exists c, s.
Qed.

Lemma lstrip_snoc (l : str) (c : char) :
  isspace c = false -> exists l', lstrip (l ++ [c]) = l' ++ [c].
Proof.
  intros Hc. induction l as [|x l IH]; simpl.
  - rewrite Hc. now exists [].
  - destruct (isspace x); [exact IH|]. now exists (x :: l).
Qed.

Lemma rstrip_head (c : char) (t : str) :
  isspace c = false -> exists t', rstrip (c :: t) = c :: t'.
Proof.
  intros Hc. unfold rstrip. simpl rev.
  destruct (lstrip_snoc (rev t) c Hc) as [l' Hl]. rewrite Hl.
  exists (rev l'). now rewrite rev_app_distr.
Qed.

Lemma strip_cases (s : str) :
  strip s = [] \/ exists c t, strip s = c :: t /\ isspace c = false.
Proof.
  unfold strip. destruct (lstrip_cases s) as [H|[c [t [H Hc]]]]; rewrite H.
  - now left.
  - right. destruct (rstrip_head c t Hc) as [t' Ht]. now exists c, t'.
Qed.

Lemma lstrip_strip (s : str) : lstrip (strip s) = strip s.
Proof.
  destruct (strip_cases s) as [H|[c [t [H Hc]]]]; rewrite H;
    [reflexivity|].
  simpl. now rewrite Hc.
Qed.

Lemma lstrip_idem (s : str) : lstrip (lstrip s) = lstrip s.
Proof.
  destruct (lstrip_cases s) as [H|[c [t [H Hc]]]]; rewrite H;
    [reflexivity|].
  simpl. now rewrite Hc.
Qed.

Lemma rstrip_idem (s : str) : rstrip (rstrip s) = rstrip s.
Proof.
  unfold rstrip. now rewrite rev_involutive, lstrip_idem.
Qed.

Lemma strip_idem (s : str) : strip (strip s) = strip s.
Proof.
  unfold strip at 1. rewrite lstrip_strip. unfold strip.
  apply rstrip_idem.
Qed.

(** ** The handler, path by path *)

(** The handler reads the request only through its stripped content and
    its lower-cased type. *)
Lemma generate_code_ext (lib : Libs) (o : set_order) (req req' : Request) :
  req_content req = req_content req' ->
  req_type lib req = req_type lib req' ->
  generate_code lib o req = generate_code lib o req'.
Proof.
  unfold req_content, req_type, generate_code, generate_code_try.
  intros Hc Ht. now rewrite Hc, Ht.
Qed.

Lemma generate_code_invalid
  (lib : Libs) (o : set_order) (req : Request) (msg : str) :
  validate_input o (req_content req) (req_type lib req) = (false, msg) ->
  generate_code lib o req =
    (Return (Plain msg 400),
     [(WARNING, lit "Invalid input: " ++ msg ++ lit " - content="
                ++ req_content req ++ lit ", type=" ++ req_type lib req)]).
Proof.
  unfold req_content, req_type, generate_code, generate_code_try.
  intros Hv. rewrite Hv. reflexivity.
Qed.

(** What the encoding step of the handler calls for a validated request. *)
Lemma generate_code_valid
  (lib : Libs) (o : set_order) (req : Request) :
  fst (validate_input o (req_content req) (req_type lib req)) = true ->
  (req_type lib req = barcode_t
   /\ generate_code lib o req =
      match code128_write lib (req_content req) (barcode_options o) with
      | Raise e =>
          (Return (Plain (lit "Barcode generation error: " ++ e) 500),
           [(INFO, lit "Generating barcode for content: "
                   ++ prefix 20 (req_content req) ++ lit "...");
            (ERROR, lit "Barcode generation failed: " ++ e)])
      | Return buf =>
          match send_file lib buf (lit "image/png") with
          | Raise e =>
              (Return (Plain (lit "Internal server error") 500),
               [(INFO, lit "Generating barcode for content: "
                       ++ prefix 20 (req_content req) ++ lit "...");
                (ERROR, lit "Unexpected error in generate_code: " ++ e)])
          | Return r =>
              (Return (File (add_security_headers (unicode_lower lib) r)),
               [(INFO, lit "Generating barcode for content: "
                       ++ prefix 20 (req_content req) ++ lit "...");
                (INFO, lit "Successfully generated " ++ barcode_t)])
          end
      end)
  \/
  (req_type lib req = qrcode_t
   /\ generate_code lib o req =
      match qr_save_png lib (req_content req) (qr_options o) with
      | Raise e =>
          (Return (Plain (lit "QR code generation error: " ++ e) 500),
           [(INFO, lit "Generating QR code for content: "
                   ++ prefix 20 (req_content req) ++ lit "...");
            (ERROR, lit "QR code generation failed: " ++ e)])
      | Return buf =>
          match send_file lib buf (lit "image/png") with
          | Raise e =>
              (Return (Plain (lit "Internal server error") 500),
               [(INFO, lit "Generating QR code for content: "
                       ++ prefix 20 (req_content req) ++ lit "...");
                (ERROR, lit "Unexpected error in generate_code: " ++ e)])
          | Return r =>
              (Return (File (add_security_headers (unicode_lower lib) r)),
               [(INFO, lit "Generating QR code for content: "
                       ++ prefix 20 (req_content req) ++ lit "...");
                (INFO, lit "Successfully generated " ++ qrcode_t)])
          end
      end).
Proof.
  intros Hfst.
  destruct (validate_input_valid_inv o _ _ Hfst) as [Hv [_ Hk]].
  unfold generate_code, generate_code_try.
  change (strip (args_get (arg_content req) [])) with (req_content req).
  change (lower (unicode_lower lib) (args_get (arg_type req) qrcode_t))
    with (req_type lib req).
  rewrite Hv. cbv beta iota. simpl negb. cbv iota.
  destruct Hk as [Hk|Hk]; rewrite Hk; [right | left];
    (split; [reflexivity|]).
  - change (eqb qrcode_t barcode_t) with false. cbv iota.
    unfold try_except, bind, call, logger, ret. simpl app.
    destruct (qr_save_png lib (req_content req) (qr_options o)) as [buf|e];
      [|reflexivity].
    destruct (send_file lib buf (lit "image/png")) as [r|e]; reflexivity.
  - change (eqb barcode_t barcode_t) with true. cbv iota.
    unfold try_except, bind, call, logger, ret. simpl app.
    destruct (code128_write lib (req_content req) (barcode_options o))
      as [buf|e]; [|reflexivity].
    destruct (send_file lib buf (lit "image/png")) as [r|e]; reflexivity.
Qed.

(** ** More on the handler *)

(** X3: the content is trimmed before anything else: a request is
    answered, and logged, as the request with the stripped content is,
    and a request without content as one whose content is empty. *)
Theorem generate_code_trims_content
  (lib : Libs) (o : set_order) (s : str) (ty : option str) :
  generate_code lib o {| arg_content := Some s; arg_type := ty |}
  = generate_code lib o {| arg_content := Some (strip s); arg_type := ty |}
  /\ generate_code lib o {| arg_content := None; arg_type := ty |}
     = generate_code lib o {| arg_content := Some []; arg_type := ty |}.
Proof.
  split; apply generate_code_ext; try reflexivity.
  unfold req_content. cbn [args_get arg_content].
  symmetry. apply strip_idem.
Qed.

(** X4: a request that [validate_input] rejects is answered with the
    reason of [validate_input] and status 400, and logs one WARNING
    record with the reason, the content and the type; the encoders and
    [send_file] play no part in the answer. *)
Theorem generate_code_rejects_with_reason
  (lib lib' : Libs) (o : set_order) (req : Request) :
  fst (validate_input o (req_content req) (req_type lib req)) = false ->
  unicode_lower lib' = unicode_lower lib ->
  generate_code lib o req =
    (Return
       (Plain (snd (validate_input o (req_content req) (req_type lib req)))
          400),
     [(WARNING,
       lit "Invalid input: "
       ++ snd (validate_input o (req_content req) (req_type lib req))
       ++ lit " - content=" ++ req_content req
       ++ lit ", type=" ++ req_type lib req)])
  /\ generate_code lib' o req = generate_code lib o req.
Proof.
  intros Hf Hul.
  assert (Ht : req_type lib' req = req_type lib req)
    by (unfold req_type; now rewrite Hul).
  destruct (validate_input o (req_content req) (req_type lib req))
    as [b msg] eqn:Hv.
  simpl in Hf. subst b. simpl snd.
  rewrite (generate_code_invalid lib o req msg Hv).
  split; [reflexivity|].
  rewrite <- Ht in Hv |- *.
  apply (generate_code_invalid lib' o req msg Hv).
Qed.

Lemma generate_code_rejects_with_reason_witness :
  generate_code working_lib QrcodeFirst
    {| arg_content := Some (lit "Test"); arg_type := Some (lit "invalid") |}
  = (Return (Plain (msg_invalid_type QrcodeFirst) 400),
     [(WARNING,
       lit "Invalid input: Invalid type. Must be one of: qrcode, barcode - content=Test, type=invalid")])
  /\ generate_code failing_send_lib QrcodeFirst
       {| arg_content := Some (lit "Test");
          arg_type := Some (lit "invalid") |}
     = generate_code working_lib QrcodeFirst
         {| arg_content := Some (lit "Test");
            arg_type := Some (lit "invalid") |}.
Proof.
  apply (generate_code_rejects_with_reason working_lib failing_send_lib
           QrcodeFirst
           {| arg_content := Some (lit "Test");
              arg_type := Some (lit "invalid") |});
    reflexivity.
Defined.

(** X5: when the request is valid, the encoder of its type returns a
    buffer and [send_file] returns a response for that buffer with
    mimetype image/png, the handler returns that response with the
    security headers added, and logs two INFO records, the first with at
    most the first 20 characters of the content. *)
Theorem generate_code_success
  (lib : Libs) (o : set_order) (req : Request) (buf : bytes) (r : Response) :
  let is_barcode := eqb (req_type lib req) barcode_t in
  fst (validate_input o (req_content req) (req_type lib req)) = true ->
  (if is_barcode
   then code128_write lib (req_content req) (barcode_options o)
   else qr_save_png lib (req_content req) (qr_options o)) = Return buf ->
  send_file lib buf (lit "image/png") = Return r ->
  generate_code lib o req =
    (Return (File (add_security_headers (unicode_lower lib) r)),
     [(INFO,
       (if is_barcode then lit "Generating barcode for content: "
        else lit "Generating QR code for content: ")
       ++ prefix 20 (req_content req) ++ lit "...");
      (INFO, lit "Successfully generated " ++ req_type lib req)]).
Proof.
  intros is_barcode Hv Henc Hsend. subst is_barcode.
  destruct (generate_code_valid lib o req Hv) as [[Ht Hg]|[Ht Hg]];
    rewrite Hg; rewrite Ht in Henc |- *.
  - change (eqb barcode_t barcode_t) with true in Henc |- *.
    cbv iota in Henc |- *. now rewrite Henc, Hsend.
  - change (eqb qrcode_t barcode_t) with false in Henc |- *.
    cbv iota in Henc |- *. now rewrite Henc, Hsend.
Qed.

Lemma generate_code_success_witness :
  generate_code working_lib BarcodeFirst
    {| arg_content := Some (lit "  ABC-123 ");
       arg_type := Some (lit "Barcode") |}
  = (Return
       (File (add_security_headers (fun _ _ => [])
                {| data := [Byte.x89; Byte.x50];
                   mimetype := lit "image/png";
                   headers := [] |})),
     [(INFO, lit "Generating barcode for content: ABC-123...");
      (INFO, lit "Successfully generated barcode")]).
Proof.
  apply (generate_code_success working_lib BarcodeFirst
           {| arg_content := Some (lit "  ABC-123 ");
              arg_type := Some (lit "Barcode") |}
           [Byte.x89; Byte.x50]); reflexivity.
Defined.

(** X6: when the request is valid and encoded but [send_file] raises,
    the outer handler answers with the fixed text "Internal server error"
    and status 500; the text of the exception goes to the log only. *)
Theorem generate_code_unexpected_error
  (lib : Libs) (o : set_order) (req : Request) (buf : bytes) (e : str) :
  let is_barcode := eqb (req_type lib req) barcode_t in
  fst (validate_input o (req_content req) (req_type lib req)) = true ->
  (if is_barcode
   then code128_write lib (req_content req) (barcode_options o)
   else qr_save_png lib (req_content req) (qr_options o)) = Return buf ->
  send_file lib buf (lit "image/png") = Raise e ->
  generate_code lib o req =
    (Return (Plain (lit "Internal server error") 500),
     [(INFO,
       (if is_barcode then lit "Generating barcode for content: "
        else lit "Generating QR code for content: ")
       ++ prefix 20 (req_content req) ++ lit "...");
      (ERROR, lit "Unexpected error in generate_code: " ++ e)]).
Proof.
  intros is_barcode Hv Henc Hsend. subst is_barcode.
  destruct (generate_code_valid lib o req Hv) as [[Ht Hg]|[Ht Hg]];
    rewrite Hg; rewrite Ht in Henc |- *.
  - change (eqb barcode_t barcode_t) with true in Henc |- *.
    cbv iota in Henc |- *. now rewrite Henc, Hsend.
  - change (eqb qrcode_t barcode_t) with false in Henc |- *.
    cbv iota in Henc |- *. now rewrite Henc, Hsend.
Qed.

Lemma generate_code_unexpected_error_witness :
  generate_code failing_send_lib QrcodeFirst
    {| arg_content := Some (lit "Test"); arg_type := None |}
  = (Return (Plain (lit "Internal server error") 500),
     [(INFO, lit "Generating QR code for content: Test...");
      (ERROR,
       lit "Unexpected error in generate_code: No such file or directory")]).
Proof.
  apply (generate_code_unexpected_error failing_send_lib QrcodeFirst
           {| arg_content := Some (lit "Test"); arg_type := None |}
           []); reflexivity.
Defined.

(** X7: the handler consults the encoders only on a content that
    [validate_input] accepts for the encoder's type and that has no
    white space at either end: libraries that agree on such contents,
    and on [send_file] and the lower-casing, give the same answers and
    logs on every request. *)
Theorem generate_code_encodes_only_valid_content
  (lib lib' : Libs) (o : set_order) (req : Request) :
  unicode_lower lib' = unicode_lower lib ->
  send_file lib' = send_file lib ->
  (forall c opts,
      fst (validate_input o c barcode_t) = true -> strip c = c ->
      code128_write lib' c opts = code128_write lib c opts) ->
  (forall c opts,
      fst (validate_input o c qrcode_t) = true -> strip c = c ->
      qr_save_png lib' c opts = qr_save_png lib c opts) ->
  generate_code lib' o req = generate_code lib o req.
Proof.
  intros Hul Hsend Hbar Hqr.
  assert (Ht : req_type lib' req = req_type lib req)
    by (unfold req_type; now rewrite Hul).
  assert (Hstrip : strip (req_content req) = req_content req)
    by apply strip_idem.
  destruct (validate_input o (req_content req) (req_type lib req))
    as [[|] msg] eqn:Hv.
  - assert (Hf : fst (validate_input o (req_content req) (req_type lib req))
                 = true) by now rewrite Hv.
    assert (Hf' : fst (validate_input o (req_content req)
                         (req_type lib' req)) = true) by now rewrite Ht.
    destruct (generate_code_valid lib o req Hf) as [[Hk Hg]|[Hk Hg]];
      destruct (generate_code_valid lib' o req Hf') as [[Hk' Hg']|[Hk' Hg']];
      rewrite Hg, Hg'; rewrite Hk in Hf;
      try (rewrite Ht, Hk in Hk'; discriminate Hk').
    + now rewrite (Hbar _ _ Hf Hstrip), Hsend, Hul.
    + now rewrite (Hqr _ _ Hf Hstrip), Hsend, Hul.
  - rewrite (generate_code_invalid lib o req msg Hv).
    rewrite <- Ht in Hv |- *.
    apply (generate_code_invalid lib' o req msg Hv).
Qed.

Lemma generate_code_encodes_only_valid_content_witness :
  generate_code strict_lib QrcodeFirst
    {| arg_content := Some hello_cjk; arg_type := Some (lit "barcode") |}
  = generate_code working_lib QrcodeFirst
      {| arg_content := Some hello_cjk; arg_type := Some (lit "barcode") |}.
Proof.
  apply (generate_code_encodes_only_valid_content working_lib strict_lib
           QrcodeFirst
           {| arg_content := Some hello_cjk;
              arg_type := Some (lit "barcode") |}).
  - reflexivity.
  - reflexivity.
  - intros c opts Hc _. cbn [strict_lib working_lib code128_write].
    now rewrite Hc.
  - intros c opts Hc _. cbn [strict_lib working_lib qr_save_png].
    now rewrite Hc.
Defined.

(** X8: every request is answered, no exception leaves the handler.  The
    answer has status 400 and the reason of [validate_input] exactly when
    [validate_input] rejects, and then the last log record is a WARNING;
    otherwise it is either a file response with the security headers
    added, the last log record being INFO, or a text with status 500,
    the last log record being ERROR. *)
Theorem generate_code_answers
  (lib : Libs) (o : set_order) (req : Request) :
  exists v log,
    generate_code lib o req = (Return v, log)
    /\ match v with
       | Plain body status =>
           (status = 400
            /\ validate_input o (req_content req) (req_type lib req)
               = (false, body)
            /\ last_level log = Some WARNING)
           \/ (status = 500
               /\ fst (validate_input o (req_content req)
                         (req_type lib req)) = true
               /\ last_level log = Some ERROR)
       | File r =>
           fst (validate_input o (req_content req) (req_type lib req))
           = true
           /\ last_level log = Some INFO
           /\ exists r0, r = add_security_headers (unicode_lower lib) r0
       end.
Proof.
  destruct (validate_input o (req_content req) (req_type lib req))
    as [[|] msg] eqn:Hv.
  - assert (Hf : fst (validate_input o (req_content req) (req_type lib req))
                 = true) by now rewrite Hv.
    simpl fst.
    destruct (generate_code_valid lib o req Hf) as [[_ Hg]|[_ Hg]];
      rewrite Hg.
    + destruct (code128_write lib (req_content req) (barcode_options o))
        as [buf|e].
      * destruct (send_file lib buf (lit "image/png")) as [r|e];
          do 2 eexists; (split; [reflexivity|]); cbv beta iota.
        -- repeat split. now exists r.
        -- right. repeat split.
      * do 2 eexists. split; [reflexivity|]. right. repeat split.
    + destruct (qr_save_png lib (req_content req) (qr_options o))
        as [buf|e].
      * destruct (send_file lib buf (lit "image/png")) as [r|e];
          do 2 eexists; (split; [reflexivity|]); cbv beta iota.
        -- repeat split. now exists r.
        -- right. repeat split.
      * do 2 eexists. split; [reflexivity|]. right. repeat split.
  - rewrite (generate_code_invalid lib o req msg Hv).
    do 2 eexists. split; [reflexivity|]. left. repeat split.
Qed.

(** ** Response headers *)

Section HeaderFacts.
Variable ul : str -> nat -> str.

Lemma name_eqb_refl (a : str) : name_eqb ul a a = true.
Proof. apply eqb_refl. Qed.

Lemma named_disjoint (k k' : str) (e : str * str) :
  name_eqb ul k k' = false -> named ul k e = true -> named ul k' e = false.
Proof.
  unfold named, name_eqb. intros Hkk He.
  apply eqb_eq in He. rewrite He. exact Hkk.
Qed.

Lemma filter_filter_implies {A} (p q : A -> bool) (l : list A) :
  (forall e, p e = true -> q e = true) ->
  filter p (filter q l) = filter p l.
Proof.
  intros Hpq. induction l as [|x l IH]; [reflexivity|].
  simpl. destruct (q x) eqn:Hq; simpl.
  - now rewrite IH.
  - destruct (p x) eqn:Hp; [|exact IH].
    rewrite (Hpq x Hp) in Hq. discriminate Hq.
Qed.

Lemma filter_none_neg {A} (p : A -> bool) (l : list A) :
  filter p l = [] -> filter (fun e => negb (p e)) l = l.
Proof.
  induction l as [|x l IH]; [reflexivity|].
  simpl. destruct (p x); [discriminate|].
  intros H. simpl. now rewrite IH.
Qed.

Lemma filter_neg_none {A} (p : A -> bool) (l : list A) :
  filter p (filter (fun e => negb (p e)) l) = [].
Proof.
  induction l as [|x l IH]; [reflexivity|].
  simpl. destruct (p x) eqn:Hp; simpl; [exact IH|].
  now rewrite Hp.
Qed.

(** Setting a header leaves the entries of every other name as they
    are, in their order. *)
Lemma filter_set_other (p : str * str -> bool) (k v : str)
  (hs : list (str * str)) :
  (forall e, p e = true -> named ul k e = false) ->
  filter p (set_header ul k v hs) = filter p hs.
Proof.
  intros Hp.
  assert (Hkv : forall w, p (k, w) = false).
  { intros w. destruct (p (k, w)) eqn:E; [|reflexivity].
    apply Hp in E. unfold named in E. simpl in E.
    now rewrite name_eqb_refl in E. }
  induction hs as [|[k0 v0] hs IH]; simpl.
  - now rewrite Hkv.
  - destruct (name_eqb ul k0 k) eqn:Hk; simpl.
    + rewrite Hkv.
      destruct (p (k0, v0)) eqn:E.
      * apply Hp in E. unfold named in E. simpl in E. congruence.
      * apply filter_filter_implies. intros e He.
        now rewrite (Hp e He).
    + now rewrite IH.
Qed.

(** After setting a header there is exactly one entry of that name. *)
Lemma filter_set_same (k v : str) (hs : list (str * str)) :
  filter (named ul k) (set_header ul k v hs) = [(k, v)].
Proof.
  assert (Hkk : named ul k (k, v) = true) by apply name_eqb_refl.
  induction hs as [|[k0 v0] hs IH]; simpl.
  - now rewrite Hkk.
  - destruct (name_eqb ul k0 k) eqn:Hk; simpl.
    + now rewrite Hkk, filter_neg_none.
    + unfold named at 1. simpl fst. now rewrite Hk.
Qed.

(** Setting a header that is already the only entry of its name, with
    that value, changes nothing. *)
Lemma set_header_settled (k v : str) (hs : list (str * str)) :
  filter (named ul k) hs = [(k, v)] -> set_header ul k v hs = hs.
Proof.
  induction hs as [|[k0 v0] hs IH]; simpl; [discriminate|].
  unfold named at 1. simpl fst.
  destruct (name_eqb ul k0 k) eqn:Hk.
  - intros [= -> -> H]. now rewrite (filter_none_neg _ _ H).
  - intros H. now rewrite IH.
Qed.

Lemma get_header_filter (k : str) (hs : list (str * str)) :
  get_header ul k hs =
    match filter (named ul k) hs with
    | [] => None
    | e :: _ => Some (snd e)
    end.
Proof.
  induction hs as [|[k0 v0] hs IH]; [reflexivity|].
  simpl. unfold named at 1. simpl fst.
  destruct (name_eqb ul k0 k); [reflexivity | exact IH].
Qed.

Lemma not_named_any_spec (names : list str) (k : str) (e : str * str) :
  In k names -> not_named_any ul names e = true -> named ul k e = false.
Proof.
  unfold not_named_any. intros Hin H.
  apply negb_true_iff in H.
  destruct (named ul k e) eqn:E; [|reflexivity].
  assert (Hex : existsb (fun k' => named ul k' e) names = true)
    by (apply existsb_exists; now exists k).
  congruence.
Qed.

End HeaderFacts.

Ltac other_header :=
  repeat (rewrite filter_set_other
            by (intros ? ?; eapply named_disjoint; [|eassumption];
                reflexivity)).

Ltac foreign_header :=
  repeat (rewrite filter_set_other
            by (intros ? ?; eapply not_named_any_spec;
                [|eassumption]; cbn; tauto)).

Lemma add_security_headers_entries (ul : str -> nat -> str) (r : Response) :
  Forall (fun kv =>
            filter (named ul (fst kv)) (headers (add_security_headers ul r))
            = [kv])
    security_headers.
Proof.
  unfold security_headers, add_security_headers. cbn [headers].
  repeat (apply Forall_cons;
          [cbn [fst]; other_header; apply filter_set_same|]).
  apply Forall_nil.
Qed.

(** X9: after [add_security_headers] the response has, for each of the
    five security headers, exactly one entry of that name (in whatever
    case the name was written before), with the fixed value, and
    [headers.get] gives that value; the entries of all other names are
    the ones it had, in their order; body and mimetype are unchanged;
    adding the headers a second time changes nothing. *)
Theorem add_security_headers_sets_all
  (ul : str -> nat -> str) (r : Response) :
  Forall (fun kv =>
            filter (named ul (fst kv)) (headers (add_security_headers ul r))
            = [kv]
            /\ get_header ul (fst kv) (headers (add_security_headers ul r))
               = Some (snd kv))
    security_headers
  /\ filter (not_named_any ul (map fst security_headers))
       (headers (add_security_headers ul r))
     = filter (not_named_any ul (map fst security_headers)) (headers r)
  /\ data (add_security_headers ul r) = data r
  /\ mimetype (add_security_headers ul r) = mimetype r
  /\ add_security_headers ul (add_security_headers ul r)
     = add_security_headers ul r.
Proof.
  pose proof (add_security_headers_entries ul r) as H.
  split; [|split; [|split; [reflexivity|split; [reflexivity|]]]].
  - eapply Forall_impl; [|exact H]. intros kv Hkv. split; [exact Hkv|].
    now rewrite get_header_filter, Hkv.
  - unfold add_security_headers. cbn [headers]. now foreign_header.
  - unfold security_headers in H.
    repeat match type of H with
           | Forall _ (_ :: _) =>
               let H1 := fresh "Hone" in
               let H2 := fresh "Hrest" in
               inversion H as [|? ? H1 H2]; subst; clear H; rename H2 into H
           end.
    cbn [fst] in *.
    unfold add_security_headers at 1. cbn [data mimetype].
    set (hs := headers (add_security_headers ul r)) in *.
    rewrite (set_header_settled ul _ _ hs Hone),
      (set_header_settled ul _ _ hs Hone0),
      (set_header_settled ul _ _ hs Hone1),
      (set_header_settled ul _ _ hs Hone2),
      (set_header_settled ul _ _ hs Hone3).
    subst hs. reflexivity.
Qed.

(** On a response that already has a frame option under a lower-case
    name and two cache directives, the conflicting entries are replaced
    in place and the duplicate is dropped. *)
Lemma add_security_headers_stale (ul : str -> nat -> str) :
  headers (add_security_headers ul stale_response)
  = [ (lit "X-Frame-Options", lit "DENY");
      (lit "Content-Length", lit "2");
      (lit "Cache-Control",
        lit "no-store, no-cache, must-revalidate, max-age=0");
      (lit "X-Content-Type-Options", lit "nosniff");
      (lit "X-XSS-Protection", lit "1; mode=block");
      (lit "Content-Security-Policy",
        lit "default-src 'none'; img-src 'self'") ].
Proof. reflexivity. Qed.

(** X10: [after_request] leaves exactly one entry for each of the three
    CORS headers, with its fixed value, and leaves the entries of all
    other names, the body and the mimetype as they are; so a response
    that went through [add_security_headers] and then [after_request]
    has exactly one entry, with the fixed value, for each of the eight
    headers. *)
Theorem after_request_keeps_security_headers
  (ul : str -> nat -> str) (r : Response) :
  Forall (fun kv =>
            filter (named ul (fst kv))
              (headers (after_request ul (add_security_headers ul r)))
            = [kv]
            /\ get_header ul (fst kv)
                 (headers (after_request ul (add_security_headers ul r)))
               = Some (snd kv))
    (security_headers ++ cors_headers)
  /\ Forall (fun kv =>
               filter (named ul (fst kv)) (headers (after_request ul r))
               = [kv]
               /\ get_header ul (fst kv) (headers (after_request ul r))
                  = Some (snd kv))
       cors_headers
  /\ filter (not_named_any ul (map fst cors_headers))
       (headers (after_request ul r))
     = filter (not_named_any ul (map fst cors_headers)) (headers r)
  /\ data (after_request ul r) = data r
  /\ mimetype (after_request ul r) = mimetype r.
Proof.
  split; [|split; [|split; [|split; reflexivity]]].
  - unfold security_headers, cors_headers, after_request,
      add_security_headers.
    cbn [headers app].
    repeat (apply Forall_cons;
            [cbn [fst snd]; rewrite get_header_filter; other_header;
             rewrite filter_set_same; split; reflexivity|]).
    apply Forall_nil.
  - unfold cors_headers, after_request. cbn [headers].
    repeat (apply Forall_cons;
            [cbn [fst snd]; rewrite get_header_filter; other_header;
             rewrite filter_set_same; split; reflexivity|]).
    apply Forall_nil.
  - unfold after_request. cbn [headers]. now foreign_header.
Qed.

(** ** Configuration from the environment *)

Lemma split_on_length (sep : char) (s : str) :
  List.length (split_on sep s) = S (count_occ N.eq_dec s sep).
Proof.
  induction s as [|c s IH]; [reflexivity|].
  simpl split_on. simpl count_occ.
  destruct (N.eqb_spec c sep) as [Heq|Hne].
  - destruct (N.eq_dec c sep); [simpl; now rewrite IH | contradiction].
  - destruct (N.eq_dec c sep); [contradiction|].
    destruct (split_on sep s); [discriminate IH | exact IH].
Qed.

Lemma split_on_join (sep : char) (s : str) :
  join [sep] (split_on sep s) = s.
Proof.
  induction s as [|c s IH]; [reflexivity|].
  simpl split_on.
  pose proof (split_on_length sep s) as Hlen.
  destruct (N.eqb_spec c sep) as [Heq|Hne].
  - subst c. destruct (split_on sep s) as [|x rest]; [discriminate Hlen|].
    change (join [sep] ([] :: x :: rest))
      with ([] ++ [sep] ++ join [sep] (x :: rest)).
    now rewrite IH.
  - destruct (split_on sep s) as [|x rest]; [discriminate Hlen|].
    destruct rest as [|y rest].
    + simpl in IH |- *. now rewrite IH.
    + change (join [sep] ((c :: x) :: y :: rest))
        with (c :: (x ++ [sep] ++ join [sep] (y :: rest))).
      change (join [sep] (x :: y :: rest))
        with (x ++ [sep] ++ join [sep] (y :: rest)) in IH.
      now rewrite IH.
Qed.

Lemma split_on_no_sep (sep : char) (s : str) :
  Forall (fun piece => ~ In sep piece) (split_on sep s).
Proof.
  induction s as [|c s IH]; [repeat constructor; intros []|].
  simpl split_on. destruct (N.eqb_spec c sep) as [Heq|Hne].
  - constructor; [intros []|exact IH].
  - destruct (split_on sep s) as [|x rest].
    + repeat constructor. intros [H|[]]. congruence.
    + inversion IH as [|? ? Hx Hrest]; subst. constructor; [|exact Hrest].
      intros [H|H]; [congruence | now apply Hx].
Qed.

Lemma map_strip_trimmed (l : list str) :
  Forall (fun s => strip s = s) (map strip l).
Proof.
  induction l as [|x l IH]; constructor; [apply strip_idem | exact IH].
Qed.

(** X11: building the configuration fails exactly when PORT is set to a
    value that [int] rejects, and then with the exception of [int]; no
    other variable can make it fail. *)
Theorem post_init_fails_iff
  (py_int : str -> outcome Z) (ul : str -> nat -> str) (env : environ)
  (e : str) :
  post_init py_int ul env = Raise e
  <-> exists v, environ_lookup env (lit "PORT") = Some v
                /\ py_int v = Raise e.
Proof.
  unfold post_init.
  destruct (environ_lookup env (lit "PORT")) as [v|].
  - destruct (py_int v) as [n|e'] eqn:Hv.
    + split; [discriminate|]. intros [v' [[= <-] H]]. congruence.
    + split.
      * intros [= ->]. now exists v.
      * intros [v' [[= <-] H]]. congruence.
  - split; [discriminate|]. intros [v [H _]]. discriminate H.
Qed.

(** X12: when PORT is unset or [int] accepts it, the configuration is
    built.  Its port is 8080 when PORT is unset and [int] of PORT
    otherwise; its Swagger host is SWAGGER_HOST, and when that is unset
    "localhost:" followed by the port, the overridden one included; its
    schemes are the pieces of SWAGGER_SCHEMES (of "http,https" when
    unset) between its commas, each piece stripped: the pieces hold no
    comma, joined by commas they give the value back, and they are one
    more than there are commas; DEBUG is whether the lower-cased DEBUG
    is "true", and off when DEBUG is unset. *)
Theorem post_init_result
  (py_int : str -> outcome Z) (ul : str -> nat -> str) (env : environ) :
  (forall v, environ_lookup env (lit "PORT") = Some v ->
             exists n, py_int v = Return n) ->
  exists cfg,
    post_init py_int ul env = Return cfg
    /\ (environ_lookup env (lit "PORT") = None -> DEFAULT_PORT cfg = 8080)
    /\ (forall v, environ_lookup env (lit "PORT") = Some v ->
                  py_int v = Return (DEFAULT_PORT cfg))
    /\ (environ_lookup env (lit "SWAGGER_HOST") = None ->
        SWAGGER_HOST cfg = lit "localhost:" ++ of_int (DEFAULT_PORT cfg))
    /\ List.length (SWAGGER_SCHEMES cfg)
       = S (count_occ N.eq_dec
              (environ_get env (lit "SWAGGER_SCHEMES") (lit "http,https"))
              comma)
    /\ Forall (fun s => strip s = s) (SWAGGER_SCHEMES cfg)
    /\ (environ_lookup env (lit "SWAGGER_SCHEMES") = None ->
        SWAGGER_SCHEMES cfg = [lit "http"; lit "https"])
    /\ (environ_lookup env (lit "DEBUG") = None -> DEBUG cfg = false)
    /\ (exists pieces,
          join [comma] pieces
          = environ_get env (lit "SWAGGER_SCHEMES") (lit "http,https")
          /\ Forall (fun piece => ~ In comma piece) pieces
          /\ SWAGGER_SCHEMES cfg = map strip pieces)
    /\ (forall h, environ_lookup env (lit "SWAGGER_HOST") = Some h ->
                  SWAGGER_HOST cfg = h)
    /\ (forall d, environ_lookup env (lit "DEBUG") = Some d ->
                  DEBUG cfg = eqb (lower ul d) (lit "true")).
Proof.
  assert (Hpieces : forall value,
             exists pieces,
               join [comma] pieces = value
               /\ Forall (fun piece => ~ In comma piece) pieces
               /\ map strip (split_on comma value) = map strip pieces).
  { intros value. exists (split_on comma value).
    split; [apply split_on_join|]. split; [apply split_on_no_sep|].
    reflexivity. }
  intros Hport. unfold post_init.
  destruct (environ_lookup env (lit "PORT")) as [v|] eqn:Hp.
  - destruct (Hport v eq_refl) as [n Hn]. rewrite Hn.
    eexists. split; [reflexivity|]. cbn [DEFAULT_PORT SWAGGER_HOST
      SWAGGER_SCHEMES DEBUG].
    split; [discriminate|].
    split; [intros v' [= <-]; exact Hn|].
    split; [intros Hh; unfold environ_get; now rewrite Hh|].
    split; [rewrite length_map; apply split_on_length|].
    split; [apply map_strip_trimmed|].
    split; [intros Hu; unfold environ_get; rewrite Hu; reflexivity|].
    split; [intros Hu; unfold environ_get; rewrite Hu; reflexivity|].
    split; [apply Hpieces|].
    split; intros x Hx; unfold environ_get; rewrite Hx; reflexivity.
  - eexists. split; [reflexivity|]. cbn [DEFAULT_PORT SWAGGER_HOST
      SWAGGER_SCHEMES DEBUG].
    split; [reflexivity|].
    split; [discriminate|].
    split; [intros Hh; unfold environ_get; now rewrite Hh|].
    split; [rewrite length_map; apply split_on_length|].
    split; [apply map_strip_trimmed|].
    split; [intros Hu; unfold environ_get; rewrite Hu; reflexivity|].
    split; [intros Hu; unfold environ_get; rewrite Hu; reflexivity|].
    split; [apply Hpieces|].
    split; intros x Hx; unfold environ_get; rewrite Hx; reflexivity.
Qed.

Lemma post_init_result_witness :
  exists cfg,
    post_init sample_int (fun _ _ => [])
      [(lit "PORT", lit "9000");
       (lit "SWAGGER_SCHEMES", lit " https , http ")]
    = Return cfg
    /\ DEFAULT_PORT cfg = 9000
    /\ SWAGGER_HOST cfg = lit "localhost:9000"
    /\ List.length (SWAGGER_SCHEMES cfg) = 2%nat
    /\ SWAGGER_SCHEMES cfg = [lit "https"; lit "http"].
Proof.
  destruct (post_init_result sample_int (fun _ _ => [])
              [(lit "PORT", lit "9000");
               (lit "SWAGGER_SCHEMES", lit " https , http ")])
    as [cfg [Hc [_ [Hp [Hh [Hl _]]]]]].
  - intros v [= <-]. exists 9000. reflexivity.
  - exists cfg. split; [exact Hc|].
    assert (Hport : DEFAULT_PORT cfg = 9000).
    { specialize (Hp (lit "9000") eq_refl).
      vm_compute in Hp. now injection Hp. }
    split; [exact Hport|].
    split; [rewrite (Hh eq_refl), Hport; reflexivity|].
    split; [exact Hl|].
    vm_compute in Hc. injection Hc as <-. reflexivity.
Defined.

Lemma post_init_fails_iff_witness :
  post_init sample_int (fun _ _ => []) [(lit "PORT", lit "http")]
  = Raise (lit "invalid literal for int()").
Proof.
  apply (post_init_fails_iff sample_int (fun _ _ => [])
           [(lit "PORT", lit "http")]).
  exists (lit "http"). split; reflexivity.
Defined.
